(** * StoryMaker: a shallow embedding of [storymaker.py]

    The bot keeps two pieces of module state, [last_media_by_user] and
    [panels], feeds them from two message handlers ([on_photo], [on_text])
    and recompiles the whole panel list into a story document with
    [assemble_story].

    Conventions of the embedding.
    - Python [str] is [string]; a character is a code point below 256, and
      the classification of characters (white space, line boundaries, case)
      is the one Python applies to those code points.
    - Python [dict] objects whose order reaches the JSON document are
      insertion-ordered association lists ([dict]); [last_media_by_user],
      which is only looked up, written and popped, is a [gmap].
    - Clock readings ([time.time()]) are inputs of the handlers, as whole
      seconds in [Z].
    - A call that can raise returns a [result]; the handlers thread the
      module state explicitly. *)

From Stdlib Require Import ZArith Ascii String List Bool Lia.
From Stdlib Require Import DecimalString DecimalNat.
From stdpp Require Import base option list gmap strings.

Local Open Scope string_scope.

(** ** Python values and exceptions *)

Inductive exn : Type :=
| AttributeError                 (* attribute lookup failed *)
| Exception (msg : string).      (* any other subclass of [Exception] *)

Inductive result (A : Type) : Type :=
| Ok (a : A)
| Raise (e : exn).
Arguments Ok {A} a.
Arguments Raise {A} e.

#[global] Instance result_ret : MRet result := fun _ a => Ok a.
#[global] Instance result_bind : MBind result := fun _ _ k r =>
  match r with
  | Ok a => k a
  | Raise e => Raise e
  end.

(** Values that end up in the JSON document. *)
#[local] Set Warnings "-register-all".
Inductive value : Type :=
| VStr (s : string)
| VList (l : list value)
| VDict (d : list (string * value)).

(** ** Strings, as Python treats them *)

Module Str.

Definition nl : string := String (ascii_of_nat 10) EmptyString.

Definition code (c : ascii) : nat := nat_of_ascii c.

Definition mem_nat (n : nat) (l : list nat) : bool := existsb (Nat.eqb n) l.

(** [str.isspace] on one character. *)
Definition isspace (c : ascii) : bool :=
  mem_nat (code c) [9; 10; 11; 12; 13; 28; 29; 30; 31; 32; 133; 160].

(** The line boundaries [str.splitlines] splits on. *)
Definition is_linebreak (c : ascii) : bool :=
  mem_nat (code c) [10; 11; 12; 13; 28; 29; 30; 133].

Definition is_cr (c : ascii) : bool := Nat.eqb (code c) 13.
Definition is_lf (c : ascii) : bool := Nat.eqb (code c) 10.

(** Truth value of a [str]: non-empty. *)
Definition truthy (s : string) : bool :=
  match s with
  | EmptyString => false
  | String _ _ => true
  end.

(** Truth value of an [Optional[str]]. *)
Definition truthy_opt (o : option string) : bool :=
  match o with
  | None => false
  | Some s => truthy s
  end.

Fixpoint lstrip_by (p : ascii -> bool) (s : string) : string :=
  match s with
  | EmptyString => EmptyString
  | String c r => if p c then lstrip_by p r else s
  end.

Fixpoint rstrip_by (p : ascii -> bool) (s : string) : string :=
  match s with
  | EmptyString => EmptyString
  | String c r =>
      match rstrip_by p r with
      | EmptyString => if p c then EmptyString else String c EmptyString
      | r' => String c r'
      end
  end.

Definition lstrip (s : string) : string := lstrip_by isspace s.
Definition rstrip (s : string) : string := rstrip_by isspace s.
Definition strip (s : string) : string := lstrip (rstrip s).

(** [s.rstrip(chars)] *)
Definition in_chars (chars : string) (c : ascii) : bool :=
  existsb (Ascii.eqb c) (list_ascii_of_string chars).
Definition rstrip_chars (chars s : string) : string :=
  rstrip_by (in_chars chars) s.

(** [str.lower] on code points below 256: A-Z and the accented capitals
    192-222 other than the multiplication sign 215. *)
Definition lower_char (c : ascii) : ascii :=
  let n := code c in
  if (Nat.leb 65 n && Nat.leb n 90)
     || (Nat.leb 192 n && Nat.leb n 222 && negb (Nat.eqb n 215))
  then ascii_of_nat (n + 32) else c.

Fixpoint lower (s : string) : string :=
  match s with
  | EmptyString => EmptyString
  | String c r => String (lower_char c) (lower r)
  end.

Fixpoint startswith (s p : string) : bool :=
  match p, s with
  | EmptyString, _ => true
  | String _ _, EmptyString => false
  | String a p', String b s' => Ascii.eqb a b && startswith s' p'
  end.

(** [sub in s] *)
Fixpoint contains (sub s : string) : bool :=
  startswith s sub ||
  match s with
  | EmptyString => false
  | String _ r => contains sub r
  end.

Fixpoint endswith (s suffix : string) : bool :=
  String.eqb s suffix ||
  match s with
  | EmptyString => false
  | String _ r => endswith r suffix
  end.

(** [sep.join(parts)] *)
Fixpoint join (sep : string) (parts : list string) : string :=
  match parts with
  | [] => EmptyString
  | [p] => p
  | p :: rest => p ++ sep ++ join sep rest
  end.

(** [str.splitlines()]: [cur] is the line read so far. A line break ends
    the current line, a carriage return followed by a line feed counts as
    one break, and no empty line is reported after a final break. *)
Fixpoint splitlines_from (cur s : string) : list string :=
  match s with
  | EmptyString => if truthy cur then [cur] else []
  | String c r =>
      if is_cr c then
        match r with
        | String c' r' =>
            if is_lf c' then cur :: splitlines_from EmptyString r'
            else cur :: splitlines_from EmptyString r
        | EmptyString => [cur]
        end
      else if is_linebreak c then cur :: splitlines_from EmptyString r
      else splitlines_from (cur ++ String c EmptyString) r
  end.

Definition splitlines (s : string) : list string :=
  splitlines_from EmptyString s.

End Str.

(** ** Helpers: [extract_speaker_and_body] *)

(** [lines.strip()] where [lines] is the [list] built on line 54: a list
    object has no attribute [strip], so the lookup raises. *)
Definition list_strip (lines : list string) : result string :=
  Raise AttributeError.

(** Lines 55-56: [while lines and not lines.strip(): lines.pop(0)]. *)
Fixpoint drop_blank (lines : list string) : result (list string) :=
  match lines with
  | [] => Ok []
  | _ :: rest =>
      s ← list_strip lines;
      if negb (Str.truthy s) then drop_blank rest else Ok lines
  end.

(** The condition of line 60. *)
Definition accept_label (first : string) : bool :=
  Nat.leb (String.length first) 32 &&
  (String.eqb (Str.lower first) "narration"
   || Str.contains "slayer" (Str.lower first)
   || Str.endswith first ":").

(** Lines 60-62: the pair returned for [first], the lines after the first
    ([lines[1:]]) and the text the function was called with. *)
Definition split_label (first : string) (rest : list string) (text : string)
  : option string * string :=
  if accept_label first
  then (Some (Str.rstrip_chars ": " first), Str.lstrip (Str.join Str.nl rest))
  else (None, text).

Definition extract_speaker_and_body (text : string)
  : result (option string * string) :=
  lines ← drop_blank (Str.splitlines text);
  match lines with
  | [] => Ok (None, EmptyString)
  | _ :: rest =>
      first ← list_strip lines;
      Ok (split_label first rest text)
  end.

(** ** Config *)

Definition PANEL_GAP_SEC : Z := 25.
Definition STORY_ID : string := "captured_story".
Definition STORY_TITLE : string := "Captured Story".

(** ** Data models *)

Record Panel : Type := {
  ts : Z;
  chat_id : Z;
  user_id : Z;
  speaker : option string;
  text : string;
  photo_url : option string
}.

(** A Python [dict] with [str] keys, in insertion order. *)
Definition dict (V : Type) : Type := list (string * V).

Fixpoint dict_get {V : Type} (k : string) (d : dict V) : option V :=
  match d with
  | [] => None
  | (k', v) :: r => if String.eqb k k' then Some v else dict_get k r
  end.

(** [d[k] = v]: an existing key keeps its place, a new one goes last. *)
Fixpoint dict_set {V : Type} (k : string) (v : V) (d : dict V) : dict V :=
  match d with
  | [] => [(k, v)]
  | (k', v') :: r =>
      if String.eqb k k' then (k, v) :: r else (k', v') :: dict_set k v r
  end.

Record StoryBundle : Type := {
  meta : dict string;
  nodes : dict (dict value);
  callbacks : dict string
}.

(** The two files under [OUTPUT_DIR]: the records appended to
    [panels.jsonl], and the document last dumped to [captured_story.json]
    (absent until the first dump). *)
Record Disk : Type := {
  panels_jsonl : list Panel;
  story_json : option value
}.

(** ** Helpers: [save_jsonl], [assemble_story] *)

Definition save_jsonl (panel : Panel) (d : Disk) : Disk :=
  {| panels_jsonl := (panels_jsonl d ++ [panel])%list;
     story_json := story_json d |}.

(** Decimal digits of a natural number, as [str(i)] prints them. *)
Definition decimal (i : nat) : string :=
  NilEmpty.string_of_uint (Nat.to_uint i).

Fixpoint zeros (k : nat) : string :=
  match k with
  | O => EmptyString
  | S k' => String "0" (zeros k')
  end.

(** The format spec [04d] on a non-negative integer: at least four digits,
    padded with zeros on the left. *)
Definition fmt04d (i : nat) : string :=
  let digits := decimal i in
  zeros (4 - String.length digits) ++ digits.

(** [f"node_{i:04d}"] *)
Definition node_id (i : nat) : string := "node_" ++ fmt04d i.

(** [f"{STORY_ID}:goto:{i:04d}"] *)
Definition goto_key (i : nat) : string := STORY_ID ++ ":goto:" ++ fmt04d i.

(** Line 91. *)
Definition node_text (p : Panel) : string :=
  match speaker p with
  | Some s =>
      if Str.truthy s then Str.strip (s ++ Str.nl ++ Str.nl ++ text p)
      else text p
  | None => text p
  end.

(** The single choice of a node that has a successor (line 95). *)
Definition continue_choice (i : nat) : value :=
  VDict [("label", VStr "Continue"); ("key", VStr (goto_key (i + 1)))].

(** Lines 92-98: the node of panel [i] out of [n]. *)
Definition make_node (n i : nat) (p : Panel) : dict value :=
  let node :=
    [ ("text", VStr (node_text p));
      ("type", VStr "choice");
      ("choices", VList (if Nat.ltb i n then [continue_choice i] else [])) ] in
  match photo_url p with
  | Some url =>
      if Str.truthy url then dict_set "photo" (VStr url) node else node
  | None => node
  end.

(** The variables the loop of lines 89-102 updates. *)
Record loop_state : Type := {
  ls_nodes : dict (dict value);
  ls_callbacks : dict string;
  ls_prev_id : option string
}.

Definition loop_init : loop_state :=
  {| ls_nodes := []; ls_callbacks := []; ls_prev_id := None |}.

(** One iteration, for the pair [(i, p)] of [enumerate(panels, 1)]. *)
Definition loop_body (n : nat) (st : loop_state) (i : nat) (p : Panel)
  : loop_state :=
  let nid := node_id i in
  {| ls_nodes := dict_set nid (make_node n i p) (ls_nodes st);
     ls_callbacks :=
       if Str.truthy_opt (ls_prev_id st)
       then dict_set (goto_key i) nid (ls_callbacks st)
       else ls_callbacks st;
     ls_prev_id := Some nid |}.

Fixpoint loop (n i : nat) (ps : list Panel) (st : loop_state) : loop_state :=
  match ps with
  | [] => st
  | p :: rest => loop n (S i) rest (loop_body n st i p)
  end.

(** Lines 86-107: the bundle. *)
Definition build_bundle (panels : list Panel) : StoryBundle :=
  let st := loop (length panels) 1 panels loop_init in
  {| meta := [ ("title", STORY_TITLE);
               ("intro", match ls_nodes st with
                         | [] => EmptyString
                         | _ :: _ => "node_0001"
                         end) ];
     nodes := ls_nodes st;
     callbacks := ls_callbacks st |}.

(** The object handed to [json.dump] on line 110. *)
Definition str_dict (d : dict string) : value :=
  VDict (map (fun kv => (fst kv, VStr (snd kv))) d).

Definition story_document (b : StoryBundle) : value :=
  VDict [ ("meta", str_dict (meta b));
          ("nodes", VDict (map (fun kv => (fst kv, VDict (snd kv))) (nodes b)));
          ("callbacks", str_dict (callbacks b)) ].

(** [assemble_story]: builds the bundle, overwrites the story file, returns
    the bundle. *)
Definition assemble_story (panels : list Panel) (d : Disk)
  : StoryBundle * Disk :=
  let bundle := build_bundle panels in
  (bundle,
   {| panels_jsonl := panels_jsonl d;
      story_json := Some (story_document bundle) |}).

(** ** State *)

(** The value stored per key by [on_photo]. *)
Record Media : Type := {
  media_ts : Z;
  file_id : string
}.

Record State : Type := {
  last_media_by_user : gmap (Z * Z) Media;
  panels : list Panel;
  disk : Disk
}.

(** ** Handlers *)

(** The fields of [update.effective_message] the handlers read;
    [from_user] carries the user's [id], [photo] the [file_id] of each
    size. *)
Record Message : Type := {
  msg_text : option string;
  msg_caption : option string;
  msg_chat_id : Z;
  from_user : option Z;
  photo : list string
}.

(** What a run of [on_text] gets from outside: the two clock readings
    (lines 139 and 151) and the two remote calls of lines 142-143. *)
Record World : Type := {
  time_pairing : Z;
  time_panel : Z;
  download_photo_bytes : string -> result (list Byte.byte);
  cloudinary_upload_bytes : list Byte.byte -> result string
}.

Inductive outcome : Type :=
| Ignored                    (* early [return] *)
| Replied (msg : string)     (* ran to the [reply_text] of line 162 *)
| Raised (e : exn).          (* an exception left the handler *)

Definition user_key (m : Message) : Z * Z :=
  (msg_chat_id m, match from_user m with Some uid => uid | None => 0%Z end).

Definition on_photo (update : option Message) (now : Z) (st : State) : State :=
  match update with
  | None => st
  | Some m =>
      match last (photo m) with
      | None => st
      | Some fid =>
          {| last_media_by_user :=
               <[user_key m := {| media_ts := now; file_id := fid |}]>
                 (last_media_by_user st);
             panels := panels st;
             disk := disk st |}
      end
  end.

(** Lines 137-148: the photo URL for the panel and the registry afterwards.
    Whatever the [try] block raises is caught by [except Exception]; the
    [finally] clause pops the entry. *)
Definition pair_photo (w : World) (key : Z * Z) (reg : gmap (Z * Z) Media)
  : option string * gmap (Z * Z) Media :=
  match reg !! key with
  | Some lm =>
      if (time_pairing w - media_ts lm <=? PANEL_GAP_SEC)%Z then
        let uploaded :=
          content ← download_photo_bytes w (file_id lm);
          cloudinary_upload_bytes w content in
        (match uploaded with
         | Ok url => Some url
         | Raise _ => None
         end,
         delete key reg)
      else (None, reg)
  | None => (None, reg)
  end.

(** Lines 137-162 of [on_text], from the locals bound on lines 132-135. *)
Definition capture_panel (w : World) (key : Z * Z) (raw : string)
    (speaker : option string) (body : string) (st : State)
  : outcome * State :=
  let '(url, reg) := pair_photo w key (last_media_by_user st) in
  let p := {| ts := time_panel w;
              chat_id := fst key;
              user_id := snd key;
              speaker := speaker;
              text := if Str.truthy_opt speaker then body else raw;
              photo_url := url |} in
  let panels' := (panels st ++ [p])%list in
  let '(bundle, d) := assemble_story panels' (save_jsonl p (disk st)) in
  (Replied ("Captured panel " ++ decimal (length panels')
            ++ ". Nodes: " ++ decimal (length (nodes bundle))),
   {| last_media_by_user := reg; panels := panels'; disk := d |}).

(** [m.text or m.caption], or the empty string (line 134). *)
Definition raw_text (m : Message) : string :=
  match msg_text m with
  | Some t => if Str.truthy t then t else default EmptyString (msg_caption m)
  | None => default EmptyString (msg_caption m)
  end.

Definition on_text (update : option Message) (w : World) (st : State)
  : outcome * State :=
  match update with
  | None => (Ignored, st)
  | Some m =>
      if negb (Str.truthy_opt (msg_text m) || Str.truthy_opt (msg_caption m))
      then (Ignored, st)
      else
        let raw := raw_text m in
        match extract_speaker_and_body raw with
        | Raise e => (Raised e, st)
        | Ok (speaker, body) => capture_panel w (user_key m) raw speaker body st
        end
  end.

(** One round of [periodic_dump] (line 167), which is also what the
    repeating job of line 180 runs: [assemble_story(panels)], the bundle
    being dropped. *)
Definition periodic_dump_round (st : State) : State :=
  {| last_media_by_user := last_media_by_user st;
     panels := panels st;
     disk := snd (assemble_story (panels st) (disk st)) |}.

(** A call of one of the three entry points the application registers
    (lines 177-180), with what it reads from outside. *)
Inductive call : Type :=
| CallPhoto (update : option Message) (now : Z)
| CallText (update : option Message) (w : World)
| CallDump.

(** The module state after one call; an exception that leaves a handler
    ends that call, and the state is what the handler made of it so far. *)
Definition after_call (st : State) (c : call) : State :=
  match c with
  | CallPhoto update now => on_photo update now st
  | CallText update w => snd (on_text update w st)
  | CallDump => periodic_dump_round st
  end.

Definition run (calls : list call) (st : State) : State :=
  fold_left after_call calls st.

(** ** Sample inputs *)

Module Sample.

Definition disk0 : Disk := {| panels_jsonl := []; story_json := None |}.

Definition state0 : State :=
  {| last_media_by_user := ∅; panels := []; disk := disk0 |}.

(** A panel of conversation 1, author 5. *)
Definition panel (speaker : option string) (text : string)
    (photo_url : option string) : Panel :=
  {| ts := 0; chat_id := 1; user_id := 5;
     speaker := speaker; text := text; photo_url := photo_url |}.

Definition p_slayer : Panel :=
  panel (Some "Slayer") "Hello" (Some "https://img/1.png").
Definition p_plain : Panel := panel None "Just some text" None.
Definition p_trailing : Panel := panel (Some "Slayer") "Hello " None.
Definition p_empty_url : Panel := panel None "Hello" (Some EmptyString).

(** Messages of author 5 in conversation 1. *)
Definition photo_msg : Message :=
  {| msg_text := None; msg_caption := None; msg_chat_id := 1;
     from_user := Some 5%Z; photo := ["small"; "large"] |}.

Definition text_msg (t : option string) : Message :=
  {| msg_text := t; msg_caption := None; msg_chat_id := 1;
     from_user := Some 5%Z; photo := [] |}.

Definition pending : Media := {| media_ts := 0; file_id := "large" |}.

(** A run at clock reading [now] with fixed answers of the two remote
    calls. *)
Definition world (now : Z) (dl : result (list Byte.byte))
    (up : result string) : World :=
  {| time_pairing := now; time_panel := now;
     download_photo_bytes := fun _ => dl;
     cloudinary_upload_bytes := fun _ => up |}.

Definition world_ok (now : Z) : World :=
  world now (Ok []) (Ok "https://img/1.png").

Definition world_upload_fails (now : Z) : World :=
  world now (Ok []) (Raise (Exception "upload failed")).

(** A second photo of the same author, ten seconds after the first. *)
Definition photo_msg2 : Message :=
  {| msg_text := None; msg_caption := None; msg_chat_id := 1;
     from_user := Some 5%Z; photo := ["thumb"; "full"] |}.

End Sample.

(** * Properties *)

Example splitlines_ex1 :
  Str.splitlines ("a" ++ Str.nl ++ Str.nl ++ "b" ++ Str.nl)
  = ["a"; EmptyString; "b"].
Proof. reflexivity. Qed.

Example strip_ex1 : Str.strip ("  a b " ++ Str.nl) = "a b".
Proof. reflexivity. Qed.

Example node_id_ex :
  node_id 7 = "node_0007" /\ goto_key 42 = "captured_story:goto:0042".
Proof. split; reflexivity. Qed.

Example build_bundle_two :
  build_bundle [Sample.p_slayer; Sample.p_plain]
  = {| meta := [("title", "Captured Story"); ("intro", "node_0001")];
       nodes :=
         [("node_0001",
           [("text", VStr ("Slayer" ++ Str.nl ++ Str.nl ++ "Hello"));
            ("type", VStr "choice");
            ("choices",
             VList [VDict [("label", VStr "Continue");
                           ("key", VStr "captured_story:goto:0002")]]);
            ("photo", VStr "https://img/1.png")]);
          ("node_0002",
           [("text", VStr "Just some text");
            ("type", VStr "choice");
            ("choices", VList [])])];
       callbacks := [("captured_story:goto:0002", "node_0002")] |}.
Proof. reflexivity. Qed.

(** ** Dictionaries *)

Section DictFacts.
Context {V : Type}.
Implicit Types (d : dict V) (k : string) (v : V).

Lemma dict_get_set_eq d k v : dict_get k (dict_set k v d) = Some v.
Proof.
  induction d as [|[k' v'] r IH]; simpl.
  - now rewrite String.eqb_refl.
  - destruct (String.eqb k k') eqn:E; simpl; rewrite ?E, ?String.eqb_refl; auto.
Qed.

Lemma dict_get_set_ne d k k' v :
  k <> k' -> dict_get k' (dict_set k v d) = dict_get k' d.
Proof.
  intros Hne. induction d as [|[k2 v2] r IH]; simpl.
  - destruct (String.eqb k' k) eqn:E; auto.
    apply String.eqb_eq in E. congruence.
  - destruct (String.eqb k k2) eqn:E; simpl.
    + apply String.eqb_eq in E. subst k2.
      destruct (String.eqb k' k) eqn:E'; auto.
      apply String.eqb_eq in E'. congruence.
    + now rewrite IH.
Qed.

Lemma dict_set_nonempty d k v : dict_set k v d <> [].
Proof.
  destruct d as [|[k' v'] r]; simpl; [discriminate|].
  destruct (String.eqb k k'); discriminate.
Qed.
End DictFacts.

(** ** Node identifiers *)

Lemma zeros_string_of_uint k d :
  zeros k ++ NilEmpty.string_of_uint d
  = NilEmpty.string_of_uint (Nat.iter k Decimal.D0 d).
Proof.
  induction k as [|k IH]; [reflexivity|].
  change (String "0" (zeros k ++ NilEmpty.string_of_uint d)
          = String "0" (NilEmpty.string_of_uint (Nat.iter k Decimal.D0 d))).
  now rewrite IH.
Qed.

Lemma of_uint_leading_zeros k d :
  Nat.of_uint (Nat.iter k Decimal.D0 d) = Nat.of_uint d.
Proof. induction k as [|k IH]; simpl; auto. Qed.

Lemma string_of_uint_inj d d' :
  NilEmpty.string_of_uint d = NilEmpty.string_of_uint d' -> d = d'.
Proof.
  intros H. apply (f_equal NilEmpty.uint_of_string) in H.
  rewrite !NilEmpty.usu in H. congruence.
Qed.

Lemma fmt04d_inj i j : fmt04d i = fmt04d j -> i = j.
Proof.
  unfold fmt04d, decimal. rewrite !zeros_string_of_uint.
  intros H. apply string_of_uint_inj in H.
  apply (f_equal Nat.of_uint) in H.
  now rewrite !of_uint_leading_zeros, !Unsigned.of_to in H.
Qed.

Lemma node_id_inj i j : node_id i = node_id j -> i = j.
Proof. unfold node_id. simpl. intros [= H]. now apply fmt04d_inj. Qed.

Lemma goto_key_inj i j : goto_key i = goto_key j -> i = j.
Proof. unfold goto_key, STORY_ID. simpl. intros [= H]. now apply fmt04d_inj. Qed.

(** ** The loop of [assemble_story] *)

(** Later iterations leave the entries of earlier positions alone. *)
Lemma loop_nodes_keep n ps : forall i st j,
  j < i ->
  dict_get (node_id j) (ls_nodes (loop n i ps st))
  = dict_get (node_id j) (ls_nodes st).
Proof.
  induction ps as [|q r IH]; intros i st j Hlt; simpl; [reflexivity|].
  rewrite IH by lia. simpl. apply dict_get_set_ne.
  intros E. apply node_id_inj in E. lia.
Qed.

Lemma loop_callbacks_keep n ps : forall i st j,
  j < i ->
  dict_get (goto_key j) (ls_callbacks (loop n i ps st))
  = dict_get (goto_key j) (ls_callbacks st).
Proof.
  induction ps as [|q r IH]; intros i st j Hlt; simpl; [reflexivity|].
  rewrite IH by lia. simpl.
  destruct (Str.truthy_opt (ls_prev_id st)); [|reflexivity].
  apply dict_get_set_ne. intros E. apply goto_key_inj in E. lia.
Qed.

(** Panel number [j] ends up under [node_id j], whatever was stored before. *)
Lemma loop_nodes_get n ps : forall i st j p,
  i <= j -> ps !! (j - i) = Some p ->
  dict_get (node_id j) (ls_nodes (loop n i ps st)) = Some (make_node n j p).
Proof.
  induction ps as [|q r IH]; intros i st j p Hij Hp; [discriminate|].
  simpl. destruct (decide (j = i)) as [->|Hne].
  - replace (i - i) with 0 in Hp by lia. injection Hp as ->.
    rewrite loop_nodes_keep by lia. simpl. apply dict_get_set_eq.
  - apply IH; [lia|]. replace (j - i) with (S (j - S i)) in Hp by lia. exact Hp.
Qed.

(** Once a previous node exists, iteration [j] registers
    [goto_key j -> node_id j]. *)
Lemma loop_callbacks_get n ps : forall i st j,
  Str.truthy_opt (ls_prev_id st) = true ->
  i <= j < i + length ps ->
  dict_get (goto_key j) (ls_callbacks (loop n i ps st)) = Some (node_id j).
Proof.
  induction ps as [|q r IH]; intros i st j Hprev Hj; simpl in *; [lia|].
  destruct (decide (j = i)) as [->|Hne].
  - rewrite loop_callbacks_keep by lia. simpl. rewrite Hprev.
    apply dict_get_set_eq.
  - apply IH; [reflexivity | lia].
Qed.

Lemma loop_nodes_nonempty n ps : forall i st,
  ls_nodes st <> [] -> ls_nodes (loop n i ps st) <> [].
Proof.
  induction ps as [|q r IH]; intros i st H; simpl; auto.
  apply IH. simpl. apply dict_set_nonempty.
Qed.

(** Lookup of a node of the bundle. *)
Lemma build_bundle_node panels i p :
  panels !! i = Some p ->
  dict_get (node_id (S i)) (nodes (build_bundle panels))
  = Some (make_node (length panels) (S i) p).
Proof.
  intros H. unfold build_bundle. simpl.
  apply loop_nodes_get; [lia|]. now replace (S i - 1) with i by lia.
Qed.

Lemma build_bundle_callback panels j :
  2 <= j <= length panels ->
  dict_get (goto_key j) (callbacks (build_bundle panels)) = Some (node_id j).
Proof.
  intros Hj. unfold build_bundle. simpl.
  destruct panels as [|p r]; simpl in *; [lia|].
  apply loop_callbacks_get; [reflexivity | lia].
Qed.

Lemma build_bundle_intro panels :
  panels <> [] -> dict_get "intro" (meta (build_bundle panels)) = Some (node_id 1).
Proof.
  intros H. unfold build_bundle. simpl.
  destruct panels as [|p r]; [congruence|]. simpl.
  pose proof (loop_nodes_nonempty (S (length r)) r 2 (loop_body (S (length r)) loop_init 1 p)) as Hne.
  destruct (ls_nodes (loop (S (length r)) 2 r (loop_body (S (length r)) loop_init 1 p))).
  - exfalso. apply Hne; [|reflexivity]. simpl. discriminate.
  - reflexivity.
Qed.

(** ** What a node holds *)

Lemma make_node_choices n i p :
  dict_get "choices" (make_node n i p)
  = Some (VList (if Nat.ltb i n then [continue_choice i] else [])).
Proof.
  unfold make_node. destruct (photo_url p) as [u|]; [destruct (Str.truthy u)|];
    reflexivity.
Qed.

Lemma make_node_text n i p :
  dict_get "text" (make_node n i p) = Some (VStr (node_text p)).
Proof.
  unfold make_node. destruct (photo_url p) as [u|]; [destruct (Str.truthy u)|];
    reflexivity.
Qed.

Lemma make_node_photo n i p :
  dict_get "photo" (make_node n i p)
  = match photo_url p with
    | Some url => if Str.truthy url then Some (VStr url) else None
    | None => None
    end.
Proof.
  unfold make_node. destruct (photo_url p) as [u|]; [destruct (Str.truthy u)|];
    reflexivity.
Qed.

Lemma truthy_true s : Str.truthy s = true <-> s <> EmptyString.
Proof. destruct s; simpl; split; congruence. Qed.

(** ** White space at the ends of a string *)

Lemma lstrip_by_length f s :
  String.length (Str.lstrip_by f s) <= String.length s.
Proof.
  induction s as [|c r IH]; simpl; [lia|]. destruct (f c); simpl; lia.
Qed.

Lemma lstrip_by_fixed_head f c r :
  Str.lstrip_by f (String c r) = String c r -> f c = false.
Proof.
  simpl. destruct (f c); [|reflexivity]. intros H.
  pose proof (lstrip_by_length f r) as Hlen. rewrite H in Hlen.
  simpl in Hlen. lia.
Qed.

Lemma append_nonempty_r (a t : string) :
  t <> EmptyString -> a ++ t <> EmptyString.
Proof. destruct a; simpl; [auto | discriminate]. Qed.

Lemma rstrip_by_app f a t :
  t <> EmptyString -> Str.rstrip_by f t = t ->
  Str.rstrip_by f (a ++ t) = a ++ t.
Proof.
  intros Hne Ht. induction a as [|c a IH]; [exact Ht|].
  change (String c a ++ t) with (String c (a ++ t)).
  simpl. rewrite IH.
  destruct (a ++ t) eqn:E; [|reflexivity].
  exfalso. now apply (append_nonempty_r a t).
Qed.

(** [strip] changes nothing between a first and a last character that are
    not white space. *)
Lemma strip_app_fixed s t :
  s <> EmptyString -> Str.lstrip s = s ->
  t <> EmptyString -> Str.rstrip t = t ->
  Str.strip (s ++ t) = s ++ t.
Proof.
  intros Hs Hl Ht Hr. unfold Str.strip, Str.rstrip.
  rewrite rstrip_by_app by assumption.
  destruct s as [|c r]; [congruence|].
  apply lstrip_by_fixed_head in Hl.
  change (String c r ++ t) with (String c (r ++ t)).
  unfold Str.lstrip. simpl. now rewrite Hl.
Qed.

(** ** The graph assembler *)

(** C4. [assemble_story] is a function of the panel sequence alone: whatever
    the disk held before, the same sequence gives the same bundle and the
    same dumped document, and a second call right after the first changes
    nothing. *)
Theorem assemble_story_idempotent (panels : list Panel) (d d' : Disk) :
  let r1 := assemble_story panels d in
  let r2 := assemble_story panels (snd r1) in
  fst r2 = fst r1
  /\ snd r2 = snd r1
  /\ fst (assemble_story panels d') = fst r1
  /\ story_json (snd (assemble_story panels d')) = story_json (snd r1)
  /\ story_json (snd r1) = Some (story_document (fst r1)).
Proof. repeat split. Qed.

(** C5. In the bundle of a non-empty sequence of [n] panels, every node
    [i < n] has the single choice whose key is [goto_key (i + 1)], that key
    is mapped by [callbacks] to [node_id (i + 1)], node [n] has no choice,
    and [meta] names [node_id 1] as the intro. *)
Theorem assemble_story_chaining (panels : list Panel) (d : Disk) :
  panels <> [] ->
  let bundle := fst (assemble_story panels d) in
  let n := length panels in
  (forall i, 1 <= i < n ->
     exists node,
       dict_get (node_id i) (nodes bundle) = Some node
       /\ dict_get "choices" node
          = Some (VList [VDict [("label", VStr "Continue");
                                ("key", VStr (goto_key (i + 1)))]])
       /\ dict_get (goto_key (i + 1)) (callbacks bundle)
          = Some (node_id (i + 1)))
  /\ (exists node,
        dict_get (node_id n) (nodes bundle) = Some node
        /\ dict_get "choices" node = Some (VList []))
  /\ dict_get "intro" (meta bundle) = Some (node_id 1).
Proof.
  intros Hne bundle n. subst bundle n. unfold assemble_story. cbn [fst].
  repeat split.
  - intros i Hi.
    destruct (lookup_lt_is_Some_2 panels (i - 1)) as [p Hp]; [lia|].
    exists (make_node (length panels) i p). repeat split.
    + pose proof (build_bundle_node panels (i - 1) p Hp) as Hn.
      now replace (S (i - 1)) with i in Hn by lia.
    + rewrite make_node_choices.
      destruct (Nat.ltb_spec i (length panels)); [reflexivity | lia].
    + apply build_bundle_callback. lia.
  - assert (Hlen : 0 < length panels) by (destruct panels; simpl; [congruence | lia]).
    destruct (lookup_lt_is_Some_2 panels (length panels - 1)) as [p Hp]; [lia|].
    exists (make_node (length panels) (length panels) p). split.
    + pose proof (build_bundle_node panels (length panels - 1) p Hp) as Hn.
      now replace (S (length panels - 1)) with (length panels) in Hn by lia.
    + rewrite make_node_choices. now rewrite Nat.ltb_irrefl.
  - now apply build_bundle_intro.
Qed.

Lemma assemble_story_chaining_witness :
  [Sample.p_slayer; Sample.p_plain] <> []
  /\ dict_get "intro"
       (meta (fst (assemble_story [Sample.p_slayer; Sample.p_plain]
                     Sample.disk0)))
     = Some (node_id 1)
  /\ exists node,
       dict_get (node_id 2)
         (nodes (fst (assemble_story [Sample.p_slayer; Sample.p_plain]
                        Sample.disk0)))
       = Some node
       /\ dict_get "choices" node = Some (VList []).
Proof.
  assert (Hne : [Sample.p_slayer; Sample.p_plain] <> []) by discriminate.
  pose proof (assemble_story_chaining _ Sample.disk0 Hne) as H.
  split; [exact Hne|]. split; [apply H | apply H].
Defined.

(** C6, as the code has it. The node of a panel without a speaker, or with
    the empty string as speaker, carries the panel's text unchanged. With a
    non-empty speaker [s] it carries [s], two line feeds and the text, with
    white space removed from both ends of the whole: that is the plain
    concatenation when [s] starts and the text ends with a character that
    is not white space. *)
Theorem assemble_story_node_text (panels : list Panel) (d : Disk)
    (i : nat) (p : Panel) :
  panels !! i = Some p ->
  exists node,
    dict_get (node_id (S i)) (nodes (fst (assemble_story panels d))) = Some node
    /\ (speaker p = None \/ speaker p = Some EmptyString ->
        dict_get "text" node = Some (VStr (text p)))
    /\ (forall s, speaker p = Some s -> s <> EmptyString ->
        dict_get "text" node
        = Some (VStr (Str.strip (s ++ Str.nl ++ Str.nl ++ text p))))
    /\ (forall s, speaker p = Some s -> s <> EmptyString ->
        Str.lstrip s = s ->
        text p <> EmptyString -> Str.rstrip (text p) = text p ->
        dict_get "text" node = Some (VStr (s ++ Str.nl ++ Str.nl ++ text p))).
Proof.
  intros Hp. exists (make_node (length panels) (S i) p).
  split; [now apply build_bundle_node|].
  rewrite make_node_text. unfold node_text. repeat split.
  - intros [-> | ->]; reflexivity.
  - intros s -> Hs. apply truthy_true in Hs. now rewrite Hs.
  - intros s -> Hs Hl Ht Hr. pose proof Hs as Hs'.
    apply truthy_true in Hs'. rewrite Hs'. do 2 f_equal.
    apply strip_app_fixed; [exact Hs | exact Hl | now unfold Str.nl |].
    change (Str.nl ++ Str.nl ++ text p) with ((Str.nl ++ Str.nl) ++ text p).
    now apply rstrip_by_app.
Qed.

Lemma assemble_story_node_text_witness :
  [Sample.p_slayer] !! 0 = Some Sample.p_slayer
  /\ exists node,
       dict_get (node_id 1)
         (nodes (fst (assemble_story [Sample.p_slayer] Sample.disk0)))
       = Some node
       /\ dict_get "text" node
          = Some (VStr ("Slayer" ++ Str.nl ++ Str.nl ++ "Hello")).
Proof.
  split; [reflexivity|].
  destruct (assemble_story_node_text [Sample.p_slayer] Sample.disk0 0
              Sample.p_slayer eq_refl) as (node & Hn & _ & _ & H).
  exists node. split; [exact Hn|].
  apply (H "Slayer"); try reflexivity; discriminate.
Defined.

(** C6 as stated fails: trailing white space of the text is lost. *)
Lemma node_text_not_concatenation :
  exists node,
    dict_get (node_id 1)
      (nodes (fst (assemble_story [Sample.p_trailing] Sample.disk0)))
    = Some node
    /\ speaker Sample.p_trailing = Some "Slayer"
    /\ text Sample.p_trailing = "Hello "
    /\ dict_get "text" node
       = Some (VStr ("Slayer" ++ Str.nl ++ Str.nl ++ "Hello"))
    /\ dict_get "text" node
       <> Some (VStr ("Slayer" ++ Str.nl ++ Str.nl ++ text Sample.p_trailing)).
Proof.
  eexists. split; [reflexivity|]. repeat split. discriminate.
Qed.

(** C10, as the code has it. A node has a ["photo"] entry exactly when the
    panel's [photo_url] is a non-empty string, and the entry is that URL; a
    panel whose [photo_url] is absent gives a node without the key. *)
Theorem assemble_story_node_photo (panels : list Panel) (d : Disk)
    (i : nat) (p : Panel) :
  panels !! i = Some p ->
  exists node,
    dict_get (node_id (S i)) (nodes (fst (assemble_story panels d))) = Some node
    /\ (photo_url p = None -> dict_get "photo" node = None)
    /\ (forall v, dict_get "photo" node = Some v <->
                  exists url,
                    photo_url p = Some url /\ url <> EmptyString
                    /\ v = VStr url).
Proof.
  intros Hp. exists (make_node (length panels) (S i) p).
  split; [now apply build_bundle_node|].
  rewrite make_node_photo. split.
  - now intros ->.
  - intros v. destruct (photo_url p) as [url|].
    + destruct (Str.truthy url) eqn:E.
      * apply truthy_true in E. split.
        -- intros [= <-]. now exists url.
        -- intros (u & [= <-] & _ & ->). reflexivity.
      * split; [discriminate|].
        intros (u & [= <-] & Hne & _). apply truthy_true in Hne. congruence.
    + split; [discriminate|]. intros (u & Hu & _). discriminate.
Qed.

Lemma assemble_story_node_photo_witness :
  [Sample.p_slayer; Sample.p_plain] !! 1 = Some Sample.p_plain
  /\ exists node,
       dict_get (node_id 2)
         (nodes (fst (assemble_story [Sample.p_slayer; Sample.p_plain]
                        Sample.disk0)))
       = Some node
       /\ dict_get "photo" node = None.
Proof.
  split; [reflexivity|].
  destruct (assemble_story_node_photo [Sample.p_slayer; Sample.p_plain]
              Sample.disk0 1 Sample.p_plain eq_refl) as (node & Hn & H & _).
  exists node. split; [exact Hn | now apply H].
Defined.

(** C10 as stated fails: a panel whose [photo_url] is the empty string has
    a [photo_url], and its node has no ["photo"] entry. *)
Lemma node_photo_empty_url :
  exists node,
    dict_get (node_id 1)
      (nodes (fst (assemble_story [Sample.p_empty_url] Sample.disk0)))
    = Some node
    /\ photo_url Sample.p_empty_url = Some EmptyString
    /\ photo_url Sample.p_empty_url <> None
    /\ dict_get "photo" node = None.
Proof. eexists. repeat split. discriminate. Qed.

(** ** The speaker parser *)

Lemma truthy_app_char cur c : Str.truthy (cur ++ String c EmptyString) = true.
Proof. destruct cur; reflexivity. Qed.

(** A non-empty text has at least one line. *)
Lemma splitlines_from_nonempty s : forall cur,
  s <> EmptyString -> Str.splitlines_from cur s <> [].
Proof.
  induction s as [|c r IH]; intros cur Hs; [congruence|].
  simpl. destruct (Str.is_cr c).
  - destruct r as [|c' r']; [discriminate|].
    destruct (Str.is_lf c'); discriminate.
  - destruct (Str.is_linebreak c); [discriminate|].
    destruct r as [|c' r'].
    + simpl. now rewrite truthy_app_char.
    + now apply IH.
Qed.

Lemma extract_speaker_and_body_nonempty text :
  text <> EmptyString -> extract_speaker_and_body text = Raise AttributeError.
Proof.
  intros Hne. unfold extract_speaker_and_body.
  pose proof (splitlines_from_nonempty text EmptyString Hne) as Hl.
  unfold Str.splitlines.
  destruct (Str.splitlines_from EmptyString text) as [|l r];
    [congruence | reflexivity].
Qed.

(** C2, on the code: the parser returns for the empty text only. On every
    other text the first test of the loop on line 55 asks the list [lines]
    for [strip] and raises. *)
Theorem extract_speaker_and_body_outcome (text : string) :
  extract_speaker_and_body text
  = match text with
    | EmptyString => Ok (None, EmptyString)
    | String _ _ => Raise AttributeError
    end.
Proof.
  destruct text as [|c r]; [reflexivity|].
  now apply extract_speaker_and_body_nonempty.
Qed.

(** C3, on the code: none of the three sample texts of the specification is
    parsed; each call raises on line 55. *)
Theorem extract_speaker_and_body_samples :
  extract_speaker_and_body ("Slayer:" ++ Str.nl ++ "Hello")
  = Raise AttributeError
  /\ extract_speaker_and_body ("Narration" ++ Str.nl ++ "The sun sets.")
     = Raise AttributeError
  /\ extract_speaker_and_body "Just some text" = Raise AttributeError.
Proof. repeat split. Qed.

(** Lines 60-62 on the three sample texts, had they been reached with
    [first] the first line: they give the pairs the specification lists. *)
Example split_label_samples :
  split_label "Slayer:" ["Hello"] ("Slayer:" ++ Str.nl ++ "Hello")
  = (Some "Slayer", "Hello")
  /\ split_label "Narration" ["The sun sets."]
       ("Narration" ++ Str.nl ++ "The sun sets.")
     = (Some "Narration", "The sun sets.")
  /\ split_label "Just some text" [] "Just some text"
     = (None, "Just some text").
Proof. repeat split. Qed.

(** ** The handlers *)

(** [on_text] on a message with text: the parse of line 135, then lines
    137-162. *)
Lemma on_text_unfold (m : Message) (w : World) (st : State) :
  Str.truthy_opt (msg_text m) || Str.truthy_opt (msg_caption m) = true ->
  on_text (Some m) w st
  = match extract_speaker_and_body (raw_text m) with
    | Raise e => (Raised e, st)
    | Ok (sp, body) => capture_panel w (user_key m) (raw_text m) sp body st
    end.
Proof. intros H. unfold on_text. now rewrite H. Qed.

Lemma raw_text_nonempty (m : Message) :
  Str.truthy_opt (msg_text m) || Str.truthy_opt (msg_caption m) = true ->
  raw_text m <> EmptyString.
Proof.
  unfold raw_text.
  destruct (msg_text m) as [[|c t]|], (msg_caption m) as [[|c' t']|];
    simpl; congruence.
Qed.

(** As the parser raises on every non-empty text, so does the handler, and
    the state stays as it was. *)
Lemma on_text_raises (m : Message) (w : World) (st : State) :
  Str.truthy_opt (msg_text m) || Str.truthy_opt (msg_caption m) = true ->
  on_text (Some m) w st = (Raised AttributeError, st).
Proof.
  intros H. rewrite on_text_unfold by exact H.
  now rewrite extract_speaker_and_body_nonempty by now apply raw_text_nonempty.
Qed.

Lemma capture_panel_state w key raw sp body st :
  let r := pair_photo w key (last_media_by_user st) in
  let p := {| ts := time_panel w; chat_id := fst key; user_id := snd key;
              speaker := sp;
              text := if Str.truthy_opt sp then body else raw;
              photo_url := fst r |} in
  exists reply,
    capture_panel w key raw sp body st
    = (Replied reply,
       {| last_media_by_user := snd r;
          panels := (panels st ++ [p])%list;
          disk := snd (assemble_story (panels st ++ [p])%list
                         (save_jsonl p (disk st))) |}).
Proof.
  intros r p. subst r p. unfold capture_panel.
  destruct (pair_photo w key (last_media_by_user st)) as [url reg].
  eexists. reflexivity.
Qed.

Lemma pair_photo_absent (w : World) (key : Z * Z) (reg : gmap (Z * Z) Media) :
  reg !! key = None -> pair_photo w key reg = (None, reg).
Proof. intros H. unfold pair_photo. now rewrite H. Qed.

Lemma pair_photo_stale (w : World) (key : Z * Z)
    (reg : gmap (Z * Z) Media) (lm : Media) :
  reg !! key = Some lm ->
  (PANEL_GAP_SEC < time_pairing w - media_ts lm)%Z ->
  pair_photo w key reg = (None, reg).
Proof.
  intros H Hlate. unfold pair_photo. rewrite H.
  destruct (Z.leb_spec (time_pairing w - media_ts lm) PANEL_GAP_SEC);
    [lia | reflexivity].
Qed.

Lemma pair_photo_fresh (w : World) (key : Z * Z)
    (reg : gmap (Z * Z) Media) (lm : Media) :
  reg !! key = Some lm ->
  (time_pairing w - media_ts lm <= PANEL_GAP_SEC)%Z ->
  pair_photo w key reg
  = (match download_photo_bytes w (file_id lm)
             ≫= cloudinary_upload_bytes w with
     | Ok url => Some url
     | Raise _ => None
     end,
     delete key reg).
Proof.
  intros H Hin. unfold pair_photo. rewrite H.
  destruct (Z.leb_spec (time_pairing w - media_ts lm) PANEL_GAP_SEC);
    [reflexivity | lia].
Qed.

Lemma on_photo_pending (m : Message) (fid : string) (now : Z) (st : State) :
  last (photo m) = Some fid ->
  last_media_by_user (on_photo (Some m) now st) !! user_key m
  = Some {| media_ts := now; file_id := fid |}.
Proof.
  intros H. unfold on_photo. rewrite H. simpl. apply lookup_insert_eq.
Qed.

(** C8. A message whose text and caption are both missing or empty is
    ignored: no panel, no reply, and the state is the one before. *)
Theorem on_text_empty_ignored (m : Message) (w : World) (st : State) :
  msg_text m = None \/ msg_text m = Some EmptyString ->
  msg_caption m = None \/ msg_caption m = Some EmptyString ->
  on_text (Some m) w st = (Ignored, st).
Proof.
  intros Ht Hc. unfold on_text.
  destruct Ht as [-> | ->], Hc as [-> | ->]; reflexivity.
Qed.

Lemma on_text_empty_ignored_witness :
  (msg_text (Sample.text_msg (Some EmptyString)) = None
   \/ msg_text (Sample.text_msg (Some EmptyString)) = Some EmptyString)
  /\ (msg_caption (Sample.text_msg (Some EmptyString)) = None
      \/ msg_caption (Sample.text_msg (Some EmptyString)) = Some EmptyString)
  /\ on_text (Some (Sample.text_msg (Some EmptyString))) (Sample.world_ok 10)
       (on_photo (Some Sample.photo_msg) 0 Sample.state0)
     = (Ignored, on_photo (Some Sample.photo_msg) 0 Sample.state0).
Proof.
  split; [right; reflexivity|]. split; [left; reflexivity|].
  apply (on_text_empty_ignored (Sample.text_msg (Some EmptyString))).
  - right; reflexivity.
  - left; reflexivity.
Defined.

(** C1, as the code has it. The pairing step of a text event (lines
    137-148) pops the pending entry of the key exactly when the entry is
    inside the window, whatever the two remote calls do. An entry outside
    the window stays in the registry, and the panel gets no photo URL.
    Entries of other keys are never touched. *)
Theorem capture_panel_registry (w : World) (key : Z * Z) (raw : string)
    (sp : option string) (body : string) (st : State) (lm : Media) :
  last_media_by_user st !! key = Some lm ->
  let st' := snd (capture_panel w key raw sp body st) in
  ((time_pairing w - media_ts lm <= PANEL_GAP_SEC)%Z ->
     last_media_by_user st' !! key = None)
  /\ ((PANEL_GAP_SEC < time_pairing w - media_ts lm)%Z ->
       last_media_by_user st' !! key = Some lm
       /\ exists p, panels st' = (panels st ++ [p])%list /\ photo_url p = None)
  /\ (forall key', key' <> key ->
       last_media_by_user st' !! key' = last_media_by_user st !! key').
Proof.
  intros Hlm st'. subst st'.
  destruct (capture_panel_state w key raw sp body st) as [reply ->].
  cbn [snd last_media_by_user panels]. repeat split.
  - intros Hin. rewrite (pair_photo_fresh w key _ lm Hlm Hin). cbn [snd].
    apply lookup_delete_eq.
  - rewrite (pair_photo_stale w key _ lm Hlm H). exact Hlm.
  - rewrite (pair_photo_stale w key _ lm Hlm H). eexists. split; reflexivity.
  - intros key' Hne.
    destruct (Z_le_gt_dec (time_pairing w - media_ts lm) PANEL_GAP_SEC) as [Hin|Hout].
    + rewrite (pair_photo_fresh w key _ lm Hlm Hin). cbn [snd].
      now apply lookup_delete_ne.
    + rewrite (pair_photo_stale w key _ lm Hlm) by lia. reflexivity.
Qed.

Lemma capture_panel_registry_witness :
  last_media_by_user (on_photo (Some Sample.photo_msg) 0 Sample.state0)
    !! (1%Z, 5%Z) = Some Sample.pending
  /\ last_media_by_user
       (snd (capture_panel (Sample.world_ok 10) (1%Z, 5%Z) "hi" None "hi"
               (on_photo (Some Sample.photo_msg) 0 Sample.state0)))
       !! (1%Z, 5%Z) = None.
Proof.
  assert (H : last_media_by_user (on_photo (Some Sample.photo_msg) 0 Sample.state0)
                !! (1%Z, 5%Z) = Some Sample.pending)
    by (apply (on_photo_pending Sample.photo_msg "large"); reflexivity).
  split; [exact H|].
  apply (capture_panel_registry (Sample.world_ok 10) (1%Z, 5%Z) "hi" None "hi"
           _ Sample.pending H).
  unfold PANEL_GAP_SEC. simpl. lia.
Defined.

(** C1 as stated fails: photo at 0, text at 30, window 25. The panel has no
    photo URL, and the pending entry is still in the registry, both after
    the pairing step alone and after the whole handler (which raises on
    line 135 for this text). *)
Lemma stale_entry_not_consumed :
  last_media_by_user
    (snd (capture_panel (Sample.world_ok 30) (1%Z, 5%Z) "hi" None "hi"
            (on_photo (Some Sample.photo_msg) 0 Sample.state0)))
    !! (1%Z, 5%Z) = Some Sample.pending
  /\ last_media_by_user
       (snd (on_text (Some (Sample.text_msg (Some "hi"))) (Sample.world_ok 30)
               (on_photo (Some Sample.photo_msg) 0 Sample.state0)))
       !! (1%Z, 5%Z) = Some Sample.pending.
Proof.
  assert (H : last_media_by_user (on_photo (Some Sample.photo_msg) 0 Sample.state0)
                !! (1%Z, 5%Z) = Some Sample.pending)
    by (apply (on_photo_pending Sample.photo_msg "large"); reflexivity).
  split.
  - destruct (capture_panel_state (Sample.world_ok 30) (1%Z, 5%Z) "hi" None "hi"
                (on_photo (Some Sample.photo_msg) 0 Sample.state0)) as [reply ->].
    cbn [snd last_media_by_user].
    rewrite (pair_photo_stale _ _ _ Sample.pending H); [exact H|].
    unfold PANEL_GAP_SEC. simpl. lia.
  - exact H.
Qed.

(** C7, on the code: a text that would pair with a pending image never
    gets to the pairing. Photo at 0, then the text [hi] of the same key at
    10 with an upload that would fail: the parse of line 135 raises
    [AttributeError] out of the handler, no panel is appended to [panels]
    or to the panel log, and the image is still pending. *)
Theorem on_text_resolver_failure_no_panel :
  on_text (Some (Sample.text_msg (Some "hi"))) (Sample.world_upload_fails 10)
    (on_photo (Some Sample.photo_msg) 0 Sample.state0)
  = (Raised AttributeError, on_photo (Some Sample.photo_msg) 0 Sample.state0)
  /\ panels (on_photo (Some Sample.photo_msg) 0 Sample.state0) = []
  /\ panels_jsonl (disk (on_photo (Some Sample.photo_msg) 0 Sample.state0))
     = []
  /\ last_media_by_user (on_photo (Some Sample.photo_msg) 0 Sample.state0)
       !! (1%Z, 5%Z) = Some Sample.pending.
Proof.
  split; [now apply on_text_raises|]. split; [reflexivity|].
  split; [reflexivity|].
  apply (on_photo_pending Sample.photo_msg "large"). reflexivity.
Qed.






(** * Further properties *)

(** ** The shape of the bundle *)

Lemma dict_set_fresh {V : Type} (d : dict V) (k : string) (v : V) :
  dict_get k d = None -> dict_set k v d = (d ++ [(k, v)])%list.
Proof.
  induction d as [|[k' v'] r IH]; simpl; [reflexivity|].
  destruct (String.eqb k k'); [discriminate|]. intros H. now rewrite IH.
Qed.

Lemma dict_get_Some_elem {V : Type} (d : dict V) (k : string) (v : V) :
  dict_get k d = Some v -> (k, v) ∈ d.
Proof.
  induction d as [|[k' v'] r IH]; simpl; [discriminate|].
  destruct (String.eqb k k') eqn:E.
  - apply String.eqb_eq in E. intros [= ->]. subst. left.
  - intros H. right. now apply IH.
Qed.

Lemma loop_nodes_shape n ps : forall i st,
  (forall j, i <= j -> dict_get (node_id j) (ls_nodes st) = None) ->
  ls_nodes (loop n i ps st)
  = (ls_nodes st
     ++ imap (fun k p => (node_id (i + k), make_node n (i + k) p)) ps)%list.
Proof.
  induction ps as [|q r IH]; intros i st Hfresh; simpl.
  - now rewrite app_nil_r.
  - rewrite IH.
    + simpl. rewrite dict_set_fresh by (apply Hfresh; lia).
      rewrite <- app_assoc. simpl. rewrite Nat.add_0_r. do 2 f_equal.
      apply imap_ext. intros k p _. simpl.
      now replace (S (i + k)) with (i + S k) by lia.
    + intros j Hj. simpl. rewrite dict_get_set_ne; [apply Hfresh; lia|].
      intros E. apply node_id_inj in E. lia.
Qed.

Lemma loop_callbacks_shape n ps : forall i st,
  Str.truthy_opt (ls_prev_id st) = true ->
  (forall j, i <= j -> dict_get (goto_key j) (ls_callbacks st) = None) ->
  ls_callbacks (loop n i ps st)
  = (ls_callbacks st
     ++ imap (fun k _ => (goto_key (i + k), node_id (i + k))) ps)%list.
Proof.
  induction ps as [|q r IH]; intros i st Hprev Hfresh; simpl.
  - now rewrite app_nil_r.
  - rewrite IH.
    + simpl. rewrite Hprev. rewrite dict_set_fresh by (apply Hfresh; lia).
      rewrite <- app_assoc. simpl. rewrite Nat.add_0_r. do 2 f_equal.
      apply imap_ext. intros k p _. simpl.
      now replace (S (i + k)) with (i + S k) by lia.
    + reflexivity.
    + intros j Hj. simpl. rewrite Hprev.
      rewrite dict_get_set_ne; [apply Hfresh; lia|].
      intros E. apply goto_key_inj in E. lia.
Qed.

Lemma build_bundle_nodes_shape (panels : list Panel) :
  nodes (build_bundle panels)
  = imap (fun k p => (node_id (S k), make_node (length panels) (S k) p))
      panels.
Proof.
  unfold build_bundle. simpl. rewrite loop_nodes_shape by reflexivity.
  reflexivity.
Qed.

Lemma build_bundle_callbacks_shape (panels : list Panel) :
  callbacks (build_bundle panels)
  = imap (fun k _ => (goto_key (k + 2), node_id (k + 2))) (tail panels).
Proof.
  unfold build_bundle. simpl. destruct panels as [|p r]; [reflexivity|].
  simpl. rewrite loop_callbacks_shape by reflexivity.
  simpl. apply imap_ext. intros k q _. simpl.
  now replace (k + 2) with (S (S k)) by lia.
Qed.

Lemma build_bundle_node_lookup (panels : list Panel) (j : nat) :
  dict_get (node_id j) (nodes (build_bundle panels))
  = match j with
    | O => None
    | S i => make_node (length panels) (S i) <$> panels !! i
    end.
Proof.
  destruct j as [|i].
  - destruct (dict_get (node_id 0) (nodes (build_bundle panels))) as [v|] eqn:E;
      [|reflexivity].
    apply dict_get_Some_elem in E. rewrite build_bundle_nodes_shape in E.
    apply elem_of_lookup_imap in E as (k & p & E & _).
    apply (f_equal fst) in E. cbn [fst] in E. apply node_id_inj in E. lia.
  - destruct (panels !! i) as [p|] eqn:Hp.
    + now apply build_bundle_node.
    + destruct (dict_get (node_id (S i)) (nodes (build_bundle panels)))
        as [v|] eqn:E; [|reflexivity].
      apply dict_get_Some_elem in E. rewrite build_bundle_nodes_shape in E.
      apply elem_of_lookup_imap in E as (k & p & E & Hk).
      apply (f_equal fst) in E. cbn [fst] in E. apply node_id_inj in E.
      congruence.
Qed.

Lemma build_bundle_callback_lookup (panels : list Panel) (j : nat) :
  dict_get (goto_key j) (callbacks (build_bundle panels))
  = if Nat.leb 2 j && Nat.leb j (length panels) then Some (node_id j)
    else None.
Proof.
  destruct (Nat.leb_spec 2 j) as [H2|H2], (Nat.leb_spec j (length panels))
    as [Hn|Hn]; cbn [andb]; try (now apply build_bundle_callback).
  all: destruct (dict_get (goto_key j) (callbacks (build_bundle panels)))
         as [v|] eqn:E; [|reflexivity].
  all: apply dict_get_Some_elem in E; rewrite build_bundle_callbacks_shape in E.
  all: apply elem_of_lookup_imap in E as (k & p & E & Hk).
  all: apply (f_equal fst) in E; cbn [fst] in E.
  all: apply goto_key_inj in E; apply lookup_lt_Some in Hk.
  all: destruct panels; simpl in *; lia.
Qed.

(** X1. The bundle has exactly one node per panel, stored in panel order
    under [node_id 1], [node_id 2], ...: no panel is dropped and none
    overwrites another, however long the list. *)
Theorem assemble_story_nodes_in_order (panels : list Panel) (d : Disk) :
  nodes (fst (assemble_story panels d))
  = imap (fun k p => (node_id (S k), make_node (length panels) (S k) p))
      panels
  /\ length (nodes (fst (assemble_story panels d))) = length panels.
Proof.
  unfold assemble_story. cbn [fst]. rewrite build_bundle_nodes_shape.
  split; [reflexivity | apply length_imap].
Qed.

(** X2. [callbacks] holds one transition per panel after the first, in
    order: [goto_key j] to [node_id j] for [j] from 2 on, and nothing
    else. *)
Theorem assemble_story_callbacks_in_order (panels : list Panel) (d : Disk) :
  callbacks (fst (assemble_story panels d))
  = imap (fun k _ => (goto_key (k + 2), node_id (k + 2))) (tail panels)
  /\ length (callbacks (fst (assemble_story panels d))) = length panels - 1.
Proof.
  unfold assemble_story. cbn [fst]. rewrite build_bundle_callbacks_shape.
  split; [reflexivity|]. rewrite length_imap.
  destruct panels; simpl; lia.
Qed.

(** X3. Looking up a node id or a transition key of a position outside the
    list finds nothing: node ids exist for positions 1 to [n] only, and
    transition keys for positions 2 to [n] only, so no transition leads to
    the first node. *)
Theorem assemble_story_lookup_range (panels : list Panel) (d : Disk)
    (j : nat) :
  (dict_get (node_id j) (nodes (fst (assemble_story panels d))) = None
   <-> j = 0 \/ length panels < j)
  /\ (dict_get (goto_key j) (callbacks (fst (assemble_story panels d))) = None
      <-> j < 2 \/ length panels < j).
Proof.
  unfold assemble_story. cbn [fst]. split.
  - rewrite build_bundle_node_lookup. destruct j as [|i].
    + split; [now left | reflexivity].
    + destruct (panels !! i) as [p|] eqn:Hp.
      * apply lookup_lt_Some in Hp. split; [discriminate | lia].
      * apply lookup_ge_None in Hp. split; [right; lia | reflexivity].
  - rewrite build_bundle_callback_lookup.
    destruct (Nat.leb_spec 2 j), (Nat.leb_spec j (length panels));
      cbn [andb]; split; try discriminate; try reflexivity; lia.
Qed.

(** X4. Every entry of [callbacks] is the transition of some position
    [j >= 2] and its target is a node of the bundle: no transition
    dangles. *)
Theorem assemble_story_callbacks_resolve (panels : list Panel) (d : Disk)
    (k v : string) :
  dict_get k (callbacks (fst (assemble_story panels d))) = Some v ->
  exists j,
    2 <= j <= length panels
    /\ k = goto_key j /\ v = node_id j
    /\ is_Some (dict_get v (nodes (fst (assemble_story panels d)))).
Proof.
  unfold assemble_story. cbn [fst]. intros H.
  apply dict_get_Some_elem in H. rewrite build_bundle_callbacks_shape in H.
  apply elem_of_lookup_imap in H as (i & p & E & Hi).
  injection E as -> ->. apply lookup_lt_Some in Hi.
  assert (Hlen : i + 2 <= length panels) by (destruct panels; simpl in *; lia).
  exists (i + 2). split; [lia|]. split; [reflexivity|]. split; [reflexivity|].
  rewrite build_bundle_node_lookup. replace (i + 2) with (S (S i)) by lia.
  destruct (lookup_lt_is_Some_2 panels (S i)) as [q Hq]; [lia|].
  rewrite Hq. now eexists.
Qed.

Lemma assemble_story_callbacks_resolve_witness :
  dict_get (goto_key 2)
    (callbacks (fst (assemble_story [Sample.p_slayer; Sample.p_plain]
                       Sample.disk0)))
  = Some (node_id 2)
  /\ exists j,
       2 <= j <= 2 /\ goto_key 2 = goto_key j /\ node_id 2 = node_id j.
Proof.
  split; [reflexivity|].
  destruct (assemble_story_callbacks_resolve
              [Sample.p_slayer; Sample.p_plain] Sample.disk0
              (goto_key 2) (node_id 2) eq_refl) as (j & Hj & Hk & Hv & _).
  exists j. split; [exact Hj|]. split; assumption.
Defined.

(** X5. The bundle of the empty list is the only one without nodes, and
    the only one whose intro is the empty string; any other has
    [node_0001] as intro. *)
Theorem assemble_story_empty_iff (panels : list Panel) (d : Disk) :
  (nodes (fst (assemble_story panels d)) = [] <-> panels = [])
  /\ (callbacks (fst (assemble_story panels d)) = [] <-> length panels <= 1)
  /\ dict_get "intro" (meta (fst (assemble_story panels d)))
     = Some (match panels with [] => EmptyString | _ :: _ => "node_0001" end)
  /\ dict_get "title" (meta (fst (assemble_story panels d)))
     = Some STORY_TITLE.
Proof.
  unfold assemble_story. cbn [fst]. split; [|split; [|split]].
  - rewrite build_bundle_nodes_shape.
    destruct panels; simpl; split; congruence.
  - rewrite build_bundle_callbacks_shape.
    destruct panels as [|p [|q r]]; simpl; split; try reflexivity;
      try discriminate; try lia.
  - destruct panels as [|p r]; [reflexivity|].
    now rewrite build_bundle_intro.
  - reflexivity.
Qed.

(** X6. Appending a panel leaves the nodes of the panels before it in
    place: same id, same text, same photo. Only the node that used to be
    last changes, from no choice to the single continue choice; every
    earlier node is identical in both bundles. *)
Theorem assemble_story_append (panels : list Panel) (q : Panel)
    (d d' : Disk) (i : nat) (p : Panel) :
  panels !! i = Some p ->
  exists old new,
    dict_get (node_id (S i)) (nodes (fst (assemble_story panels d)))
    = Some old
    /\ dict_get (node_id (S i))
         (nodes (fst (assemble_story (panels ++ [q])%list d')))
       = Some new
    /\ dict_get "text" new = dict_get "text" old
    /\ dict_get "photo" new = dict_get "photo" old
    /\ (S i < length panels -> new = old)
    /\ (S i = length panels ->
        dict_get "choices" old = Some (VList [])
        /\ dict_get "choices" new = Some (VList [continue_choice (S i)])).
Proof.
  intros Hp. pose proof (lookup_lt_Some _ _ _ Hp) as Hlt.
  exists (make_node (length panels) (S i) p),
         (make_node (length (panels ++ [q])%list) (S i) p).
  split; [now apply build_bundle_node|].
  split; [apply build_bundle_node; now apply lookup_app_l_Some|].
  rewrite !make_node_text, !make_node_photo, !make_node_choices.
  rewrite length_app. simpl.
  split; [reflexivity|]. split; [reflexivity|]. split.
  - intros H. unfold make_node.
    destruct (Nat.ltb_spec (S i) (length panels)); [|lia].
    destruct (Nat.ltb_spec (S i) (length panels + 1)); [|lia]. reflexivity.
  - intros H.
    destruct (Nat.ltb_spec (S i) (length panels)); [lia|].
    destruct (Nat.ltb_spec (S i) (length panels + 1)); [|lia].
    split; reflexivity.
Qed.

Lemma assemble_story_append_witness :
  [Sample.p_slayer] !! 0 = Some Sample.p_slayer
  /\ exists old new,
       dict_get (node_id 1)
         (nodes (fst (assemble_story [Sample.p_slayer] Sample.disk0)))
       = Some old
       /\ dict_get (node_id 1)
            (nodes (fst (assemble_story [Sample.p_slayer; Sample.p_plain]
                           Sample.disk0)))
          = Some new
       /\ dict_get "text" new = dict_get "text" old.
Proof.
  split; [reflexivity|].
  destruct (assemble_story_append [Sample.p_slayer] Sample.p_plain
              Sample.disk0 Sample.disk0 0 Sample.p_slayer eq_refl)
    as (old & new & Ho & Hn & Ht & _).
  exists old, new. split; [exact Ho|]. split; [exact Hn | exact Ht].
Defined.

(** X7. Distinct positions get distinct node ids and distinct transition
    keys, also past position 9999 where the number takes more than four
    digits. *)
Theorem ids_injective (i j : nat) :
  (node_id i = node_id j <-> i = j)
  /\ (goto_key i = goto_key j <-> i = j).
Proof.
  split; split; try (now intros ->).
  - apply node_id_inj.
  - apply goto_key_inj.
Qed.

(** ** Photo events *)

(** X8. A photo event writes nothing but the slot of its own key: panels
    and disk stay, every other slot stays, and the slot of the key holds
    the clock reading and the last (largest) size of the photo. An update
    without a photo changes nothing. *)
Theorem on_photo_frame (m : Message) (now : Z) (st : State) :
  panels (on_photo (Some m) now st) = panels st
  /\ disk (on_photo (Some m) now st) = disk st
  /\ (forall key, key <> user_key m ->
      last_media_by_user (on_photo (Some m) now st) !! key
      = last_media_by_user st !! key)
  /\ (forall sizes fid, photo m = (sizes ++ [fid])%list ->
      last_media_by_user (on_photo (Some m) now st) !! user_key m
      = Some {| media_ts := now; file_id := fid |})
  /\ (photo m = [] -> on_photo (Some m) now st = st)
  /\ on_photo None now st = st.
Proof.
  unfold on_photo. repeat split.
  - destruct (last (photo m)); reflexivity.
  - destruct (last (photo m)); reflexivity.
  - intros key Hne. destruct (last (photo m)); [|reflexivity].
    simpl. now apply lookup_insert_ne.
  - intros sizes fid ->. rewrite last_snoc. simpl. apply lookup_insert_eq.
  - now intros ->.
Qed.

(** X9. Last photo wins: of two photo events of the same key, the first
    leaves no trace once the second has recorded its photo. *)
Theorem on_photo_last_wins (m1 m2 : Message) (t1 t2 : Z) (st : State) :
  user_key m1 = user_key m2 ->
  photo m2 <> [] ->
  on_photo (Some m2) t2 (on_photo (Some m1) t1 st) = on_photo (Some m2) t2 st.
Proof.
  intros Hkey Hne. unfold on_photo.
  destruct (last (photo m2)) as [fid2|] eqn:E2;
    [|apply last_None in E2; contradiction].
  destruct (last (photo m1)) as [fid1|]; [|reflexivity].
  simpl. rewrite Hkey. f_equal. apply insert_insert_eq.
Qed.

Lemma on_photo_last_wins_witness :
  user_key Sample.photo_msg = user_key Sample.photo_msg2
  /\ photo Sample.photo_msg2 <> []
  /\ on_photo (Some Sample.photo_msg2) 10
       (on_photo (Some Sample.photo_msg) 0 Sample.state0)
     = on_photo (Some Sample.photo_msg2) 10 Sample.state0.
Proof.
  split; [reflexivity|]. split; [discriminate|].
  apply (on_photo_last_wins Sample.photo_msg Sample.photo_msg2);
    [reflexivity | discriminate].
Defined.

(** ** Text events: the pairing step *)

(** X10. Photo, then text of the same key inside the window, with both
    remote calls answering: the file downloaded is the last size of the
    photo, the panel carries the URL the upload returned, and the entry is
    gone from the registry. *)
Theorem photo_then_text_pairs (m : Message) (sizes : list string)
    (fid : string) (t0 : Z) (st : State) (w : World) (raw : string)
    (sp : option string) (body : string) (content : list Byte.byte)
    (url : string) :
  photo m = (sizes ++ [fid])%list ->
  (time_pairing w - t0 <= PANEL_GAP_SEC)%Z ->
  download_photo_bytes w fid = Ok content ->
  cloudinary_upload_bytes w content = Ok url ->
  exists reply st' p,
    capture_panel w (user_key m) raw sp body (on_photo (Some m) t0 st)
    = (Replied reply, st')
    /\ panels st' = (panels st ++ [p])%list
    /\ photo_url p = Some url
    /\ last_media_by_user st' !! user_key m = None.
Proof.
  intros Hphoto Hin Hdl Hup.
  assert (Hlm : last_media_by_user (on_photo (Some m) t0 st) !! user_key m
                = Some {| media_ts := t0; file_id := fid |}).
  { apply on_photo_pending. rewrite Hphoto. apply last_snoc. }
  assert (Hpan : panels (on_photo (Some m) t0 st) = panels st).
  { unfold on_photo. destruct (last (photo m)); reflexivity. }
  destruct (capture_panel_state w (user_key m) raw sp body
              (on_photo (Some m) t0 st)) as [reply Heq].
  rewrite Heq, Hpan. rewrite (pair_photo_fresh w _ _ _ Hlm Hin).
  cbn [file_id fst snd]. rewrite Hdl. unfold mbind, result_bind.
  rewrite Hup.
  eexists _, _, _. split; [reflexivity|].
  cbn [panels last_media_by_user photo_url].
  split; [reflexivity|]. split; [reflexivity|]. apply lookup_delete_eq.
Qed.

Lemma photo_then_text_pairs_witness :
  photo Sample.photo_msg = (["small"] ++ ["large"])%list
  /\ exists reply st' p,
       capture_panel (Sample.world_ok 10) (user_key Sample.photo_msg)
         "hi" None "hi" (on_photo (Some Sample.photo_msg) 0 Sample.state0)
       = (Replied reply, st')
       /\ panels st' = [p]
       /\ photo_url p = Some "https://img/1.png".
Proof.
  split; [reflexivity|].
  destruct (photo_then_text_pairs Sample.photo_msg ["small"] "large" 0
              Sample.state0 (Sample.world_ok 10) "hi" None "hi" []
              "https://img/1.png" eq_refl)
    as (reply & st' & p & Heq & Hp & Hurl & _); try reflexivity.
  { unfold PANEL_GAP_SEC. simpl. lia. }
  exists reply, st', p. split; [exact Heq|]. split; [exact Hp | exact Hurl].
Defined.

(** X11. A text of a key without pending entry gets a panel without photo;
    the registry is left as it is, whatever the remote calls would
    answer. *)
Theorem capture_panel_no_pending (w : World) (key : Z * Z) (raw : string)
    (sp : option string) (body : string) (st : State) :
  last_media_by_user st !! key = None ->
  exists reply st' p,
    capture_panel w key raw sp body st = (Replied reply, st')
    /\ last_media_by_user st' = last_media_by_user st
    /\ panels st' = (panels st ++ [p])%list
    /\ photo_url p = None.
Proof.
  intros Hnone.
  destruct (capture_panel_state w key raw sp body st) as [reply Heq].
  rewrite Heq, (pair_photo_absent w key _ Hnone).
  eexists _, _, _. split; [reflexivity|]. repeat split.
Qed.

Lemma capture_panel_no_pending_witness :
  last_media_by_user Sample.state0 !! (1%Z, 5%Z) = None
  /\ exists reply st' p,
       capture_panel (Sample.world_ok 10) (1%Z, 5%Z) "hi" None "hi"
         Sample.state0 = (Replied reply, st')
       /\ panels st' = [p] /\ photo_url p = None.
Proof.
  assert (H : last_media_by_user Sample.state0 !! (1%Z, 5%Z) = None)
    by apply lookup_empty.
  split; [exact H|].
  destruct (capture_panel_no_pending (Sample.world_ok 10) (1%Z, 5%Z) "hi"
              None "hi" Sample.state0 H) as (reply & st' & p & Heq & _ & Hp & Hu).
  exists reply, st', p. split; [exact Heq|]. split; [exact Hp | exact Hu].
Defined.

(** X12. The pairing step appends exactly one panel, stamped with the
    second clock reading and the key, and its reply names one number
    twice: the panel count and the node count are both the old count plus
    one. *)
Theorem capture_panel_reply (w : World) (key : Z * Z) (raw : string)
    (sp : option string) (body : string) (st : State) :
  exists st' p,
    capture_panel w key raw sp body st
    = (Replied ("Captured panel " ++ decimal (S (length (panels st)))
                ++ ". Nodes: " ++ decimal (S (length (panels st)))),
       st')
    /\ panels st' = (panels st ++ [p])%list
    /\ ts p = time_panel w
    /\ (chat_id p, user_id p) = key
    /\ speaker p = sp.
Proof.
  unfold capture_panel.
  destruct (pair_photo w key (last_media_by_user st)) as [url reg].
  unfold assemble_story. rewrite build_bundle_nodes_shape, length_imap.
  rewrite length_app. simpl. replace (length (panels st) + 1) with
    (S (length (panels st))) by lia.
  eexists _, _. split; [reflexivity|]. simpl. repeat split.
  now destruct key.
Qed.

(** X13. The pairing step keeps the disk in step with the panel list: if
    the panel log held the panels before, it holds them after, and the
    story file is the document of the new list. *)
Theorem capture_panel_disk_in_sync (w : World) (key : Z * Z) (raw : string)
    (sp : option string) (body : string) (st : State) (d : Disk) :
  panels_jsonl (disk st) = panels st ->
  panels_jsonl (disk (snd (capture_panel w key raw sp body st)))
  = panels (snd (capture_panel w key raw sp body st))
  /\ story_json (disk (snd (capture_panel w key raw sp body st)))
     = Some (story_document
               (fst (assemble_story
                       (panels (snd (capture_panel w key raw sp body st)))
                       d))).
Proof.
  intros Hsync.
  destruct (capture_panel_state w key raw sp body st) as [reply ->].
  cbn [snd disk panels]. unfold assemble_story, save_jsonl.
  cbn [snd fst panels_jsonl story_json]. rewrite Hsync. split; reflexivity.
Qed.

Lemma capture_panel_disk_in_sync_witness :
  panels_jsonl (disk Sample.state0) = panels Sample.state0
  /\ panels_jsonl
       (disk (snd (capture_panel (Sample.world_ok 10) (1%Z, 5%Z) "hi" None
                     "hi" Sample.state0)))
     = panels (snd (capture_panel (Sample.world_ok 10) (1%Z, 5%Z) "hi" None
                      "hi" Sample.state0)).
Proof.
  split; [reflexivity|].
  apply (capture_panel_disk_in_sync (Sample.world_ok 10) (1%Z, 5%Z) "hi"
           None "hi" Sample.state0 Sample.disk0 eq_refl).
Defined.

(** X18. The pairing step under a failing resolver. With an entry of the
    key inside the window and a download or an upload that raises, lines
    137-162 still run to their reply: the panel is appended to [panels] and
    to the panel log with no photo URL and with the speaker and text it
    would have had anyway, and the entry is popped. *)
Theorem capture_panel_resolver_failure (w : World) (key : Z * Z)
    (raw : string) (sp : option string) (body : string) (st : State)
    (lm : Media) (e : exn) :
  last_media_by_user st !! key = Some lm ->
  (time_pairing w - media_ts lm <= PANEL_GAP_SEC)%Z ->
  download_photo_bytes w (file_id lm) = Raise e
  \/ (exists content,
        download_photo_bytes w (file_id lm) = Ok content
        /\ cloudinary_upload_bytes w content = Raise e) ->
  exists reply st' p,
    capture_panel w key raw sp body st = (Replied reply, st')
    /\ panels st' = (panels st ++ [p])%list
    /\ panels_jsonl (disk st') = (panels_jsonl (disk st) ++ [p])%list
    /\ photo_url p = None
    /\ speaker p = sp
    /\ text p = (if Str.truthy_opt sp then body else raw)
    /\ chat_id p = fst key /\ user_id p = snd key
    /\ last_media_by_user st' !! key = None.
Proof.
  intros Hlm Hin Hfail.
  destruct (capture_panel_state w key raw sp body st) as [reply Heq].
  rewrite Heq. rewrite (pair_photo_fresh w key _ lm Hlm Hin).
  assert (Hnone : match download_photo_bytes w (file_id lm)
                        ≫= cloudinary_upload_bytes w with
                  | Ok url => Some url
                  | Raise _ => None
                  end = None).
  { destruct Hfail as [-> | (content & -> & Hup)]; [reflexivity|].
    simpl. unfold mbind, result_bind. now rewrite Hup. }
  rewrite Hnone. cbn [fst snd].
  eexists _, _, _. split; [reflexivity|].
  cbn [panels disk last_media_by_user photo_url speaker text chat_id user_id].
  repeat split. apply lookup_delete_eq.
Qed.

Lemma capture_panel_resolver_failure_witness :
  last_media_by_user (on_photo (Some Sample.photo_msg) 0 Sample.state0)
    !! (1%Z, 5%Z) = Some Sample.pending
  /\ exists reply st' p,
       capture_panel (Sample.world_upload_fails 10) (1%Z, 5%Z) "hi" None "hi"
         (on_photo (Some Sample.photo_msg) 0 Sample.state0)
       = (Replied reply, st')
       /\ panels st' = [p] /\ photo_url p = None.
Proof.
  assert (H : last_media_by_user (on_photo (Some Sample.photo_msg) 0 Sample.state0)
                !! (1%Z, 5%Z) = Some Sample.pending)
    by (apply (on_photo_pending Sample.photo_msg "large"); reflexivity).
  split; [exact H|].
  destruct (capture_panel_resolver_failure (Sample.world_upload_fails 10)
              (1%Z, 5%Z) "hi" None "hi" _ Sample.pending
              (Exception "upload failed") H)
    as (reply & st' & p & Heq & Hp & _ & Hurl & _).
  - unfold PANEL_GAP_SEC. simpl. lia.
  - right. exists []. split; reflexivity.
  - exists reply, st', p. repeat split; assumption.
Defined.

(** ** The periodic dump *)

(** X14. A dump round touches nothing but the story file, a second round
    changes nothing, and a round right after the pairing step finds the
    file already up to date: the state stays as the step left it. *)
Theorem periodic_dump_round_idle (w : World) (key : Z * Z) (raw : string)
    (sp : option string) (body : string) (st : State) :
  periodic_dump_round (snd (capture_panel w key raw sp body st))
  = snd (capture_panel w key raw sp body st)
  /\ periodic_dump_round (periodic_dump_round st) = periodic_dump_round st
  /\ panels (periodic_dump_round st) = panels st
  /\ last_media_by_user (periodic_dump_round st) = last_media_by_user st
  /\ panels_jsonl (disk (periodic_dump_round st)) = panels_jsonl (disk st).
Proof.
  destruct (capture_panel_state w key raw sp body st) as [reply ->].
  repeat split.
Qed.

(** ** Text events: the handler as a whole *)

Lemma on_text_state (update : option Message) (w : World) (st : State) :
  snd (on_text update w st) = st.
Proof.
  destruct update as [m|]; [|reflexivity].
  destruct (Str.truthy_opt (msg_text m) || Str.truthy_opt (msg_caption m))
    eqn:E.
  - now rewrite on_text_raises.
  - unfold on_text. now rewrite E.
Qed.

(** X15. What [on_text] does with any update: without message, or with a
    message whose text and caption are both missing or empty, it returns;
    otherwise the parse of line 135 raises [AttributeError]. It never gets
    to its reply, and in all three cases the state is the one it found. *)
Theorem on_text_outcome (update : option Message) (w : World) (st : State) :
  on_text update w st
  = (match update with
     | None => Ignored
     | Some m =>
         if Str.truthy_opt (msg_text m) || Str.truthy_opt (msg_caption m)
         then Raised AttributeError
         else Ignored
     end, st).
Proof.
  destruct update as [m|]; [|reflexivity].
  destruct (Str.truthy_opt (msg_text m) || Str.truthy_opt (msg_caption m))
    eqn:E.
  - now apply on_text_raises.
  - unfold on_text. now rewrite E.
Qed.

Lemma after_call_keeps (st : State) (c : call) :
  panels (after_call st c) = panels st
  /\ panels_jsonl (disk (after_call st c)) = panels_jsonl (disk st)
  /\ (forall key : Z * Z,
        is_Some (last_media_by_user st !! key) ->
        is_Some (last_media_by_user (after_call st c) !! key)).
Proof.
  destruct c as [update now | update w |]; simpl.
  - unfold on_photo. destruct update as [m|]; [|auto].
    destruct (last (photo m)) as [fid|]; [|auto]. simpl.
    repeat split. intros key Hkey.
    destruct (decide (key = user_key m)) as [->|Hne].
    + rewrite lookup_insert_eq. now eexists.
    + now rewrite lookup_insert_ne.
  - rewrite on_text_state. auto.
  - auto.
Qed.

(** X16. Over any sequence of calls of the handlers and the dump, in any
    order and with any answers from outside, the panel list and the panel
    log stay as they started, and no pending entry is ever removed: text
    events neither produce panels nor consume photos. *)
Theorem run_keeps_panels (calls : list call) (st : State) :
  panels (run calls st) = panels st
  /\ panels_jsonl (disk (run calls st)) = panels_jsonl (disk st)
  /\ (forall key : Z * Z,
        is_Some (last_media_by_user st !! key) ->
        is_Some (last_media_by_user (run calls st) !! key)).
Proof.
  unfold run. revert st. induction calls as [|c calls IH]; intros st.
  - simpl. auto.
  - simpl. destruct (IH (after_call st c)) as (Hp & Hj & Hr).
    destruct (after_call_keeps st c) as (Hp1 & Hj1 & Hr1).
    rewrite Hp, Hj, Hp1, Hj1. repeat split. auto.
Qed.

(** ** The label test *)

Lemma rstrip_by_length f s :
  String.length (Str.rstrip_by f s) <= String.length s.
Proof.
  induction s as [|c r IH]; simpl; [lia|].
  destruct (Str.rstrip_by f r); [destruct (f c)|]; simpl in *; lia.
Qed.

Lemma startswith_empty s : Str.startswith s EmptyString = true.
Proof. now destruct s. Qed.

Lemma rstrip_by_prefix f s : Str.startswith s (Str.rstrip_by f s) = true.
Proof.
  induction s as [|c r IH]; simpl; [reflexivity|].
  destruct (Str.rstrip_by f r) as [|c' r'] eqn:E.
  - destruct (f c); simpl; [reflexivity|].
    now rewrite Ascii.eqb_refl, startswith_empty.
  - simpl. now rewrite Ascii.eqb_refl.
Qed.

(** What [rstrip_by] returns does not end with a character it strips. *)
Lemma rstrip_by_last f s c :
  Str.endswith (Str.rstrip_by f s) (String c EmptyString) = true ->
  f c = false.
Proof.
  induction s as [|a r IH]; simpl; [discriminate|].
  destruct (Str.rstrip_by f r) as [|b r'] eqn:E.
  - destruct (f a) eqn:Fa; simpl; [discriminate|].
    destruct (Ascii.eqb_spec a c) as [->|]; [intros _; exact Fa|].
    simpl. discriminate.
  - intros H. apply IH.
    change (Str.endswith (String a (String b r')) (String c EmptyString))
      with (String.eqb (String a (String b r')) (String c EmptyString)
            || Str.endswith (String b r') (String c EmptyString)) in H.
    apply orb_true_iff in H as [H|H]; [|exact H].
    apply String.eqb_eq in H. discriminate.
Qed.

Lemma lstrip_by_idem f s :
  Str.lstrip_by f (Str.lstrip_by f s) = Str.lstrip_by f s.
Proof.
  induction s as [|c r IH]; simpl; [reflexivity|].
  destruct (f c) eqn:E; [exact IH|]. simpl. now rewrite E.
Qed.

(** X17. Lines 60-62, for any first line handed to them. A line that fails
    the test gives no speaker and the text untouched. A line that passes
    gives a speaker that is a prefix of the line, of at most 32 characters,
    ending neither with a colon nor with a space, and a body that does not
    start with white space. *)
Theorem split_label_result (first : string) (rest : list string)
    (text : string) :
  (accept_label first = false -> split_label first rest text = (None, text))
  /\ (accept_label first = true ->
      exists sp body,
        split_label first rest text = (Some sp, body)
        /\ Str.startswith first sp = true
        /\ String.length sp <= 32
        /\ Str.endswith sp ":" = false
        /\ Str.endswith sp " " = false
        /\ Str.lstrip body = body).
Proof.
  unfold split_label. split; intros H; rewrite H; [reflexivity|].
  eexists _, _. split; [reflexivity|].
  unfold Str.rstrip_chars. split; [apply rstrip_by_prefix|]. split.
  - unfold accept_label in H. apply andb_true_iff in H as [Hlen _].
    apply Nat.leb_le in Hlen.
    pose proof (rstrip_by_length (Str.in_chars ": ") first). lia.
  - split; [|split].
    + destruct (Str.endswith _ ":") eqn:E; [|reflexivity].
      apply rstrip_by_last in E. discriminate.
    + destruct (Str.endswith _ " ") eqn:E; [|reflexivity].
      apply rstrip_by_last in E. discriminate.
    + apply lstrip_by_idem.
Qed.
